(** * Custom hostnames (custom_hostname.go) of the Cloudflare Go client

    A shallow embedding of [custom_hostname.go].  Every API method is a
    program that may call the shared transport [makeRequest] and then
    continues with its reply; running a program against a transport yields
    the requests made and the Go results.  The Go standard library pieces the
    file relies on ([encoding/json]'s [Unmarshal], [net/url]'s [Values] and
    [QueryEscape], [strconv.Itoa], [errors.New]/[errors.Wrap]) are modelled
    as far as the file observes them. *)

From Stdlib Require Import String Ascii List ZArith Bool Lia.
From Stdlib Require Import Numbers.DecimalString.
#[local] Set Warnings "-register-all,-abstract-large-number".
Import ListNotations.
Open Scope string_scope.

(** ** Characters and strings *)

Definition byte_of (c : ascii) : nat := nat_of_ascii c.

Definition in_range (lo hi : nat) (c : ascii) : bool :=
  (lo <=? byte_of c)%nat && (byte_of c <=? hi)%nat.

Definition is_digit (c : ascii) : bool := in_range 48 57 c.

Definition is_upper (c : ascii) : bool := in_range 65 90 c.

Definition is_lower (c : ascii) : bool := in_range 97 122 c.

(** ASCII case folding, as [encoding/json] uses to match object keys
    against field names. *)
Definition to_lower (c : ascii) : ascii :=
  if is_upper c then ascii_of_nat (byte_of c + 32) else c.

Fixpoint lower (s : string) : string :=
  match s with
  | EmptyString => EmptyString
  | String c r => String (to_lower c) (lower r)
  end.

Fixpoint string_of_list (l : list ascii) : string :=
  match l with
  | [] => EmptyString
  | c :: r => String c (string_of_list r)
  end.

(** ** Go errors

    [errors.New] builds a leaf error, [errors.Wrap] adds a context message
    around a cause.  [encoding/json] reports a [*SyntaxError] for malformed
    input and an [*UnmarshalTypeError] when a JSON value does not fit the
    Go type it is decoded into.  A transport error is any error value. *)
Inductive error : Type :=
| ErrNew (msg : string)
| ErrWrap (cause : error) (msg : string)
| ErrSyntax
| ErrUnmarshalType (value ty : string).

(** Modelled from the spec: the context messages [errMakeRequestError] and
    [errUnmarshalError] are declared in the package's errors.go, which is not
    part of this file; the spec only says the first marks a failed transport
    call ([TransportError]) and the second a decode failure ([DecodeError]). *)
Definition errMakeRequestError : string := "Error from makeRequest".
Definition errUnmarshalError : string := "Error unmarshalling the JSON response".

(** ** JSON documents *)

Inductive jvalue : Type :=
| JNull
| JBool (b : bool)
| JNumber (lit : string)
| JString (s : string)
| JArray (items : list jvalue)
| JObject (members : list (string * jvalue)).

(** *** The syntax check and parse of [json.Unmarshal]

    Unmarshal first scans the whole input; any syntax error, including
    trailing non-space bytes or an empty input, is a [*SyntaxError].  The
    parser below follows the JSON grammar the scanner accepts.  String
    contents: escapes are decoded, [\u] escapes are encoded in UTF-8 with
    surrogate pairs combined and lone surrogates replaced by U+FFFD; the
    replacement of invalid raw UTF-8 bytes is not modelled. *)

Definition is_ws (c : ascii) : bool :=
  match nat_of_ascii c with 32 | 9 | 10 | 13 => true | _ => false end.

Fixpoint skip_ws (s : string) : string :=
  match s with
  | String c r => if is_ws c then skip_ws r else s
  | EmptyString => EmptyString
  end.

(** Consume a keyword such as [null]. *)
Fixpoint eat (kw s : string) : option string :=
  match kw, s with
  | EmptyString, _ => Some s
  | String k kr, String c r => if Ascii.eqb k c then eat kr r else None
  | String _ _, EmptyString => None
  end.

Fixpoint digits (s : string) : list ascii * string :=
  match s with
  | String c r =>
      if is_digit c then let (ds, rest) := digits r in (c :: ds, rest)
      else ([], s)
  | EmptyString => ([], EmptyString)
  end.

(** A number literal: [-? (0 | [1-9][0-9]* ) (. [0-9]+)? ([eE] [+-]? [0-9]+)?]. *)
Definition opt_char (c : ascii) (s : string) : list ascii * string :=
  match s with
  | String d r => if Ascii.eqb c d then ([d], r) else ([], s)
  | EmptyString => ([], s)
  end.

Definition lex_int_part (s : string) : option (list ascii * string) :=
  match s with
  | String c r =>
      if Ascii.eqb c "0" then Some (["0"%char], r)
      else if is_digit c then Some (digits s) else None
  | EmptyString => None
  end.

Definition lex_frac (s : string) : option (list ascii * string) :=
  match s with
  | String c r =>
      if Ascii.eqb c "." then
        match digits r with
        | ([], _) => None
        | (ds, r') => Some (c :: ds, r')
        end
      else Some ([], s)
  | EmptyString => Some ([], s)
  end.

Definition lex_exp (s : string) : option (list ascii * string) :=
  match s with
  | String e r =>
      if (Ascii.eqb e "e" || Ascii.eqb e "E")%bool then
        let '(sg, r1) :=
          match opt_char "+" r with
          | ([], _) => opt_char "-" r
          | p => p
          end in
        match digits r1 with
        | ([], _) => None
        | (ds, r2) => Some (e :: sg ++ ds, r2)%list
        end
      else Some ([], s)
  | EmptyString => Some ([], s)
  end.

Definition lex_number (s : string) : option (list ascii * string) :=
  let '(sign, s1) := opt_char "-" s in
  match lex_int_part s1 with
  | None => None
  | Some (ip, s2) =>
      match lex_frac s2 with
      | None => None
      | Some (fp, s3) =>
          match lex_exp s3 with
          | None => None
          | Some (ep, s4) => Some (sign ++ ip ++ fp ++ ep, s4)%list
          end
      end
  end.

Definition hex_val (c : ascii) : option nat :=
  let n := byte_of c in
  if is_digit c then Some (n - 48)
  else if in_range 65 70 c then Some (n - 55)
  else if in_range 97 102 c then Some (n - 87)
  else None.

(** Four hex digits of a [\u] escape. *)
Definition lex_hex4 (s : string) : option (nat * string) :=
  match s with
  | String a (String b (String c (String d r))) =>
      match hex_val a, hex_val b, hex_val c, hex_val d with
      | Some x, Some y, Some z, Some w => Some (((x * 16 + y) * 16 + z) * 16 + w, r)
      | _, _, _, _ => None
      end
  | _ => None
  end.

(** UTF-8 encoding of a code point (as [utf8.EncodeRune]). *)
Definition utf8 (cp : nat) : list ascii :=
  if (cp <? 128)%nat then [ascii_of_nat cp]
  else if (cp <? 2048)%nat then
    [ascii_of_nat (192 + cp / 64); ascii_of_nat (128 + cp mod 64)]
  else if (cp <? 65536)%nat then
    [ascii_of_nat (224 + cp / 4096); ascii_of_nat (128 + (cp / 64) mod 64);
     ascii_of_nat (128 + cp mod 64)]
  else
    [ascii_of_nat (240 + cp / 262144); ascii_of_nat (128 + (cp / 4096) mod 64);
     ascii_of_nat (128 + (cp / 64) mod 64); ascii_of_nat (128 + cp mod 64)].

Definition replacement_char : nat := 65533.

Definition is_surrogate (n : nat) : bool := (55296 <=? n)%nat && (n <? 57344)%nat.

(** A [\u] escape whose backslash and [u] are consumed: a high surrogate
    followed by a [\u] low surrogate decodes as the pair, any other
    surrogate as U+FFFD. *)
Definition lex_unicode (s : string) : option (list ascii * string) :=
  match lex_hex4 s with
  | None => None
  | Some (hi, r) =>
      if is_surrogate hi then
        match r with
        | String "\"%char (String "u"%char r2) =>
            match lex_hex4 r2 with
            | Some (lo, r3) =>
                if ((hi <? 56320)%nat && (56320 <=? lo)%nat && (lo <? 57344)%nat)%bool
                then Some (utf8 (65536 + (hi - 55296) * 1024 + (lo - 56320)), r3)
                else Some (utf8 replacement_char, r)
            | None => Some (utf8 replacement_char, r)
            end
        | _ => Some (utf8 replacement_char, r)
        end
      else Some (utf8 hi, r)
  end.

Definition simple_escape (c : ascii) : option ascii :=
  match nat_of_ascii c with
  | 34 => Some c | 92 => Some c | 47 => Some c
  | 98 => Some (ascii_of_nat 8) | 102 => Some (ascii_of_nat 12)
  | 110 => Some (ascii_of_nat 10) | 114 => Some (ascii_of_nat 13)
  | 116 => Some (ascii_of_nat 9)
  | _ => None
  end.

(** The characters of a string literal after its opening quote, up to and
    including the closing quote. *)
Fixpoint lex_chars (fuel : nat) (s : string) : option (list ascii * string) :=
  match fuel with
  | O => None
  | S f =>
      match s with
      | EmptyString => None
      | String c r =>
          if Ascii.eqb c "034" then Some ([], r)
          else if (byte_of c <? 32)%nat then None
          else if Ascii.eqb c "\" then
            match r with
            | String "u"%char r1 =>
                match lex_unicode r1 with
                | Some (bs, r2) =>
                    match lex_chars f r2 with
                    | Some (cs, r3) => Some (bs ++ cs, r3)%list
                    | None => None
                    end
                | None => None
                end
            | String e r1 =>
                match simple_escape e with
                | Some d =>
                    match lex_chars f r1 with
                    | Some (cs, r3) => Some (d :: cs, r3)
                    | None => None
                    end
                | None => None
                end
            | EmptyString => None
            end
          else
            match lex_chars f r with
            | Some (cs, r3) => Some (c :: cs, r3)
            | None => None
            end
      end
  end.

Definition lex_string (s : string) : option (string * string) :=
  match lex_chars (String.length s) s with
  | Some (cs, r) => Some (string_of_list cs, r)
  | None => None
  end.

Definition starts (c : ascii) (s : string) : option string :=
  match s with
  | String d r => if Ascii.eqb c d then Some r else None
  | EmptyString => None
  end.

Fixpoint parse_value (fuel : nat) (s : string) : option (jvalue * string) :=
  match fuel with
  | O => None
  | S f =>
      match skip_ws s with
      | EmptyString => None
      | String c r as s1 =>
          if Ascii.eqb c "n" then option_map (fun r' => (JNull, r')) (eat "ull" r)
          else if Ascii.eqb c "t" then option_map (fun r' => (JBool true, r')) (eat "rue" r)
          else if Ascii.eqb c "f" then option_map (fun r' => (JBool false, r')) (eat "alse" r)
          else if Ascii.eqb c "034" then
            option_map (fun '(str, r') => (JString str, r')) (lex_string r)
          else if Ascii.eqb c "[" then
            match starts "]" (skip_ws r) with
            | Some r' => Some (JArray [], r')
            | None => option_map (fun '(vs, r') => (JArray vs, r')) (parse_items f r)
            end
          else if Ascii.eqb c "{" then
            match starts "}" (skip_ws r) with
            | Some r' => Some (JObject [], r')
            | None => option_map (fun '(ms, r') => (JObject ms, r')) (parse_members f r)
            end
          else option_map (fun '(ds, r') => (JNumber (string_of_list ds), r'))
                 (lex_number s1)
      end
  end
(** Array elements, then [,] and more elements or the closing [\]]. *)
with parse_items (fuel : nat) (s : string) : option (list jvalue * string) :=
  match fuel with
  | O => None
  | S f =>
      match parse_value f s with
      | None => None
      | Some (v, r) =>
          match skip_ws r with
          | String c r1 =>
              if Ascii.eqb c "]" then Some ([v], r1)
              else if Ascii.eqb c "," then
                option_map (fun '(vs, r2) => (v :: vs, r2)) (parse_items f r1)
              else None
          | EmptyString => None
          end
      end
  end
(** Object members [key : value], then [,] and more members or [}]. *)
with parse_members (fuel : nat) (s : string) : option (list (string * jvalue) * string) :=
  match fuel with
  | O => None
  | S f =>
      match starts "034" (skip_ws s) with
      | None => None
      | Some r =>
          match lex_string r with
          | None => None
          | Some (k, r1) =>
              match starts ":" (skip_ws r1) with
              | None => None
              | Some r2 =>
                  match parse_value f r2 with
                  | None => None
                  | Some (v, r3) =>
                      match skip_ws r3 with
                      | String c r4 =>
                          if Ascii.eqb c "}" then Some ([(k, v)], r4)
                          else if Ascii.eqb c "," then
                            option_map (fun '(ms, r5) => ((k, v) :: ms, r5))
                              (parse_members f r4)
                          else None
                      | EmptyString => None
                      end
                  end
              end
          end
      end
  end.

(** The whole input must be one JSON value surrounded by white space. *)
Definition parse_json (b : string) : option jvalue :=
  match parse_value (3 * String.length b + 3) b with
  | Some (v, r) => match skip_ws r with EmptyString => Some v | _ => None end
  | None => None
  end.

(** JSON texts below are written with ['] for the double quote. *)
Definition json_text (s : string) : string :=
  string_of_list (map (fun c => if Ascii.eqb c "'" then "034"%char else c) (list_ascii_of_string s)).

Example parse_json_1 :
  parse_json (json_text " {'a': [1, -2.5e3, true, null], 'b\n': 'x\u0041'} ") =
  Some (JObject [("a", JArray [JNumber "1"; JNumber "-2.5e3"; JBool true; JNull]);
                 ("b" ++ String (ascii_of_nat 10) "", JString "xA")]).
Proof. vm_compute. reflexivity. Qed.

Example parse_json_2 : parse_json "[1,]" = None /\ parse_json "01" = None
  /\ parse_json "" = None /\ parse_json "1" = Some (JNumber "1").
Proof. vm_compute. repeat split. Qed.

(** *** Decoding a JSON value into a Go value

    Go's decoder writes into an existing value: [null] leaves a string,
    integer or struct unchanged and sets a slice, map or pointer to nil;
    object keys select struct fields by their [json] tag, compared without
    ASCII case; unknown keys are ignored; a JSON value of the wrong kind is
    an [*UnmarshalTypeError] (Go keeps decoding and reports the first such
    error; the decoded value is then never used by this file, so decoding
    stops at it here).  A value of type [interface{}] is kept as the JSON
    value itself. *)

Definition dres (A : Type) : Type := (A + error)%type.

Definition dbind {A B : Type} (m : dres A) (k : A -> dres B) : dres B :=
  match m with inl a => k a | inr e => inr e end.

Notation "'let*' x ':=' m 'in' k" := (dbind m (fun x => k))
  (at level 200, x name, m at level 100, k at level 200).

Definition kind (j : jvalue) : string :=
  match j with
  | JNull => "null" | JBool _ => "bool" | JNumber _ => "number"
  | JString _ => "string" | JArray _ => "array" | JObject _ => "object"
  end.

Definition decode_string (cur : string) (j : jvalue) : dres string :=
  match j with
  | JNull => inl cur
  | JString s => inl s
  | _ => inr (ErrUnmarshalType (kind j) "string")
  end.

Fixpoint digits_value (acc : Z) (s : string) : option Z :=
  match s with
  | EmptyString => Some acc
  | String c r =>
      if is_digit c then digits_value (acc * 10 + Z.of_nat (byte_of c - 48)) r
      else None
  end.

(** [strconv.ParseInt(lit, 10, 64)] on a JSON number literal. *)
Definition parse_int64 (lit : string) : option Z :=
  let v := match lit with
           | String c r => if Ascii.eqb c "-" then option_map Z.opp (digits_value 0 r)
                           else digits_value 0 lit
           | EmptyString => None
           end in
  match v with
  | Some z => if ((- 2 ^ 63 <=? z) && (z <? 2 ^ 63))%Z then Some z else None
  | None => None
  end.

Definition decode_int (cur : Z) (j : jvalue) : dres Z :=
  match j with
  | JNull => inl cur
  | JNumber lit =>
      match parse_int64 lit with
      | Some z => inl z
      | None => inr (ErrUnmarshalType ("number " ++ lit) "int")
      end
  | _ => inr (ErrUnmarshalType (kind j) "int")
  end.

(** The members of an object, in order, each applied to the field its key
    selects. *)
Fixpoint decode_members {T : Type} (field : string -> option (T -> jvalue -> dres T))
    (cur : T) (ms : list (string * jvalue)) : dres T :=
  match ms with
  | [] => inl cur
  | (k, v) :: rest =>
      match field (lower k) with
      | Some upd => let* cur' := upd cur v in decode_members field cur' rest
      | None => decode_members field cur rest
      end
  end.

Definition decode_struct {T : Type} (ty : string)
    (field : string -> option (T -> jvalue -> dres T)) (cur : T) (j : jvalue) : dres T :=
  match j with
  | JNull => inl cur
  | JObject ms => decode_members field cur ms
  | _ => inr (ErrUnmarshalType (kind j) ty)
  end.

(** A slice: element [i] is decoded into the old element [i] when there is
    one, else into the zero value; the slice gets the array's length. *)
Fixpoint decode_items {T : Type} (dec : T -> jvalue -> dres T) (zero : T)
    (cur : list T) (items : list jvalue) : dres (list T) :=
  match items with
  | [] => inl []
  | j :: rest =>
      let '(old, cur') := match cur with x :: r => (x, r) | [] => (zero, []) end in
      let* x := dec old j in
      let* xs := decode_items dec zero cur' rest in
      inl (x :: xs)
  end.

Definition decode_slice {T : Type} (ty : string) (dec : T -> jvalue -> dres T) (zero : T)
    (cur : list T) (j : jvalue) : dres (list T) :=
  match j with
  | JNull => inl []
  | JArray items => decode_items dec zero cur items
  | _ => inr (ErrUnmarshalType (kind j) ty)
  end.

(** A pointer: [null] makes it nil, anything else is decoded into the
    pointee, allocated as the zero value when the pointer is nil. *)
Definition decode_ptr {T : Type} (dec : T -> jvalue -> dres T) (zero : T)
    (cur : option T) (j : jvalue) : dres (option T) :=
  match j with
  | JNull => inl None
  | _ =>
      let* x := dec (match cur with Some x => x | None => zero end) j in
      inl (Some x)
  end.

(** [json.Unmarshal(data, &v)]: the syntax check, then the decoding. *)
Definition Unmarshal {T : Type} (dec : T -> jvalue -> dres T) (cur : T) (data : string)
    : dres T :=
  match parse_json data with
  | None => inr ErrSyntax
  | Some j => dec cur j
  end.

(** ** The data model of custom_hostname.go *)

(** [CustomHostnameSSL]; the Go field [Type] is [Type_] here, [Type]
    being a keyword. *)
Record CustomHostnameSSL : Type := mkCustomHostnameSSL {
  Status : string;       (* json:"status" *)
  Method : string;       (* json:"method" *)
  Type_ : string;        (* json:"type" *)
  CNAMETarget : string;  (* json:"cname_target" *)
  CNAMEName : string     (* json:"cname_name" *)
}.

(** [CustomMetadata map[string]interface{}]: [None] is the nil map. *)
Definition CustomMetadata : Type := option (list (string * jvalue)).

(** [CustomHostname]; the field [CustomMetadata] is [Metadata] here, the
    name being taken by its type. *)
Record CustomHostname : Type := mkCustomHostname {
  ID : string;                  (* json:"id" *)
  Hostname : string;            (* json:"hostname" *)
  CustomOriginServer : string;  (* json:"custom_origin_server" *)
  SSL : CustomHostnameSSL;      (* json:"ssl" *)
  Metadata : CustomMetadata     (* json:"custom_metadata" *)
}.

(** Modelled from the spec: [Response], embedded in the envelopes, is
    declared in the package's shared client code, not in this file; the
    spec only calls it the envelope's response metadata, so it carries no
    field decoded here. *)
Record Response : Type := mkResponse {}.

(** Modelled from the spec: [ResultInfo], declared in the shared client
    code, is the pagination envelope: page number, per-page count, total
    count. *)
Record ResultInfo : Type := mkResultInfo {
  Page : Z;     (* json:"page" *)
  PerPage : Z;  (* json:"per_page" *)
  Total : Z     (* json:"total_count" *)
}.

(** [CustomHostnameResponse]; [Response] is embedded. *)
Record CustomHostnameResponse : Type := mkCustomHostnameResponse {
  Result : CustomHostname;  (* json:"result" *)
  Resp : Response
}.

(** [CustomHostnameListResponse]; its [Result] is [ListResult] here. *)
Record CustomHostnameListResponse : Type := mkCustomHostnameListResponse {
  ListResult : list CustomHostname;  (* json:"result" *)
  ListResp : Response;
  Info : ResultInfo                  (* ResultInfo `json:"result_info"` *)
}.

(** Zero values. *)
Definition zero_ssl : CustomHostnameSSL := mkCustomHostnameSSL "" "" "" "" "".
Definition zero_ch : CustomHostname := mkCustomHostname "" "" "" zero_ssl None.
Definition zero_response : Response := mkResponse.
Definition zero_result_info : ResultInfo := mkResultInfo 0 0 0.
Definition zero_chr : CustomHostnameResponse := mkCustomHostnameResponse zero_ch zero_response.
Definition zero_chlr : CustomHostnameListResponse :=
  mkCustomHostnameListResponse [] zero_response zero_result_info.

(** *** Decoders of the model's types *)

Definition decode_ssl : CustomHostnameSSL -> jvalue -> dres CustomHostnameSSL :=
  decode_struct "cloudflare.CustomHostnameSSL" (fun k =>
    if String.eqb k "status" then Some (fun c j =>
      let* v := decode_string (Status c) j in
      inl (mkCustomHostnameSSL v (Method c) (Type_ c) (CNAMETarget c) (CNAMEName c)))
    else if String.eqb k "method" then Some (fun c j =>
      let* v := decode_string (Method c) j in
      inl (mkCustomHostnameSSL (Status c) v (Type_ c) (CNAMETarget c) (CNAMEName c)))
    else if String.eqb k "type" then Some (fun c j =>
      let* v := decode_string (Type_ c) j in
      inl (mkCustomHostnameSSL (Status c) (Method c) v (CNAMETarget c) (CNAMEName c)))
    else if String.eqb k "cname_target" then Some (fun c j =>
      let* v := decode_string (CNAMETarget c) j in
      inl (mkCustomHostnameSSL (Status c) (Method c) (Type_ c) v (CNAMEName c)))
    else if String.eqb k "cname_name" then Some (fun c j =>
      let* v := decode_string (CNAMEName c) j in
      inl (mkCustomHostnameSSL (Status c) (Method c) (Type_ c) (CNAMETarget c) v))
    else None).

Fixpoint map_set (k : string) (v : jvalue) (m : list (string * jvalue))
    : list (string * jvalue) :=
  match m with
  | [] => [(k, v)]
  | (k', v') :: r => if String.eqb k k' then (k, v) :: r else (k', v') :: map_set k v r
  end.

Definition decode_metadata (cur : CustomMetadata) (j : jvalue) : dres CustomMetadata :=
  match j with
  | JNull => inl None
  | JObject ms =>
      inl (Some (fold_left (fun m '(k, v) => map_set k v m) ms
                   (match cur with Some m => m | None => [] end)))
  | _ => inr (ErrUnmarshalType (kind j) "cloudflare.CustomMetadata")
  end.

Definition decode_ch : CustomHostname -> jvalue -> dres CustomHostname :=
  decode_struct "cloudflare.CustomHostname" (fun k =>
    if String.eqb k "id" then Some (fun c j =>
      let* v := decode_string (ID c) j in
      inl (mkCustomHostname v (Hostname c) (CustomOriginServer c) (SSL c) (Metadata c)))
    else if String.eqb k "hostname" then Some (fun c j =>
      let* v := decode_string (Hostname c) j in
      inl (mkCustomHostname (ID c) v (CustomOriginServer c) (SSL c) (Metadata c)))
    else if String.eqb k "custom_origin_server" then Some (fun c j =>
      let* v := decode_string (CustomOriginServer c) j in
      inl (mkCustomHostname (ID c) (Hostname c) v (SSL c) (Metadata c)))
    else if String.eqb k "ssl" then Some (fun c j =>
      let* v := decode_ssl (SSL c) j in
      inl (mkCustomHostname (ID c) (Hostname c) (CustomOriginServer c) v (Metadata c)))
    else if String.eqb k "custom_metadata" then Some (fun c j =>
      let* v := decode_metadata (Metadata c) j in
      inl (mkCustomHostname (ID c) (Hostname c) (CustomOriginServer c) (SSL c) v))
    else None).

Definition decode_result_info : ResultInfo -> jvalue -> dres ResultInfo :=
  decode_struct "cloudflare.ResultInfo" (fun k =>
    if String.eqb k "page" then Some (fun c j =>
      let* v := decode_int (Page c) j in inl (mkResultInfo v (PerPage c) (Total c)))
    else if String.eqb k "per_page" then Some (fun c j =>
      let* v := decode_int (PerPage c) j in inl (mkResultInfo (Page c) v (Total c)))
    else if String.eqb k "total_count" then Some (fun c j =>
      let* v := decode_int (Total c) j in inl (mkResultInfo (Page c) (PerPage c) v))
    else None).

Definition decode_chr : CustomHostnameResponse -> jvalue -> dres CustomHostnameResponse :=
  decode_struct "cloudflare.CustomHostnameResponse" (fun k =>
    if String.eqb k "result" then Some (fun c j =>
      let* v := decode_ch (Result c) j in inl (mkCustomHostnameResponse v (Resp c)))
    else None).

Definition decode_chlr
    : CustomHostnameListResponse -> jvalue -> dres CustomHostnameListResponse :=
  decode_struct "cloudflare.CustomHostnameListResponse" (fun k =>
    if String.eqb k "result" then Some (fun c j =>
      let* v := decode_slice "[]cloudflare.CustomHostname" decode_ch zero_ch (ListResult c) j in
      inl (mkCustomHostnameListResponse v (ListResp c) (Info c)))
    else if String.eqb k "result_info" then Some (fun c j =>
      let* v := decode_result_info (Info c) j in
      inl (mkCustomHostnameListResponse (ListResult c) (ListResp c) v))
    else None).

(** ** [net/url] and [strconv] *)

(** [shouldEscape(c, encodeQueryComponent)]: only letters, digits and
    [- _ . ~] stay as they are. *)
Definition shouldEscape (c : ascii) : bool :=
  if (is_lower c || is_upper c || is_digit c)%bool then false
  else match nat_of_ascii c with
       | 45 | 95 | 46 | 126 => false
       | _ => true
       end.

Definition upperhex (n : nat) : ascii :=
  ascii_of_nat (if (n <? 10)%nat then 48 + n else 55 + n).

(** One byte of [url.QueryEscape]: a space becomes [+], any other escaped
    byte [%XX] with upper-case hex digits. *)
Definition escape_byte (c : ascii) : string :=
  if Ascii.eqb c " " then "+"
  else if shouldEscape c then
    String "%" (String (upperhex (byte_of c / 16)) (String (upperhex (byte_of c mod 16)) ""))
  else String c "".

(** [url.QueryEscape]. *)
Fixpoint QueryEscape (s : string) : string :=
  match s with
  | EmptyString => EmptyString
  | String c r => escape_byte c ++ QueryEscape r
  end.

(** [url.Values]: [map[string][]string], as an association list with
    distinct keys. *)
Definition Values : Type := list (string * list string).

(** [v.Set(key, value)] replaces the key's values by [[value]]. *)
Fixpoint Values_Set (key value : string) (v : Values) : Values :=
  match v with
  | [] => [(key, [value])]
  | (k, vs) :: r =>
      if String.eqb k key then (k, [value]) :: r else (k, vs) :: Values_Set key value r
  end.

Fixpoint insert_by_key (kv : string * list string) (l : Values) : Values :=
  match l with
  | [] => [kv]
  | kv' :: r => if String.leb (fst kv) (fst kv') then kv :: l else kv' :: insert_by_key kv r
  end.

(** [sort.Strings] on the keys (byte-wise order). *)
Definition sort_keys (v : Values) : Values := fold_right insert_by_key [] v.

(** [v.Encode()]: [key=value] pairs joined by [&], keys in sorted order,
    keys and values query-escaped. *)
Definition Encode (v : Values) : string :=
  let pairs := flat_map (fun '(k, vs) => map (fun x => QueryEscape k ++ "=" ++ QueryEscape x) vs)
                 (sort_keys v) in
  match pairs with
  | [] => ""
  | p :: ps => fold_left (fun acc q => acc ++ "&" ++ q) ps p
  end.

(** [strconv.Itoa] on a Go [int]. *)
Definition Itoa (n : Z) : string := NilEmpty.string_of_int (Z.to_int n).

Example Itoa_ex : Itoa 0 = "0" /\ Itoa 42 = "42" /\ Itoa (-7) = "-7".
Proof. vm_compute. repeat split. Qed.

Example Encode_ex :
  Encode (Values_Set "hostname" "a b&c" (Values_Set "page" "1" (Values_Set "per_page" "50" [])))
  = "hostname=a+b%26c&page=1&per_page=50".
Proof. vm_compute. reflexivity. Qed.

(** ** The transport and API programs *)

(** A call [api.makeRequest(method, uri, params)]; the only non-nil
    params this file passes is a [CustomHostname]. *)
Record request : Type := mkRequest {
  req_method : string;
  req_uri : string;
  req_body : option CustomHostname
}.

(** What [makeRequest] returns: the response bytes, or a non-nil error. *)
Inductive reply : Type :=
| Reply (res : string)
| Failed (err : error).

(** A program of this file: it returns, or calls [makeRequest] and goes on
    with the reply. *)
Inductive prog (A : Type) : Type :=
| Ret (a : A)
| MakeRequest (r : request) (k : reply -> prog A).
Arguments Ret {A} a.
Arguments MakeRequest {A} r k.

Fixpoint bind {A B : Type} (p : prog A) (f : A -> prog B) : prog B :=
  match p with
  | Ret a => f a
  | MakeRequest r k => MakeRequest r (fun x => bind (k x) f)
  end.

(** Running a program against a transport: the requests made, in order,
    and the result. *)
Fixpoint run {A : Type} (transport : request -> reply) (p : prog A) : list request * A :=
  match p with
  | Ret a => ([], a)
  | MakeRequest r k => let '(rs, a) := run transport (k (transport r)) in (r :: rs, a)
  end.

(** A Go [error] result: [None] is nil. *)
Definition goerror : Type := option error.

(** ** The methods of [*API] in custom_hostname.go *)
Module API.

(** [UpdateCustomHostnameSSL]: a stub. *)
Definition UpdateCustomHostnameSSL (zoneID customHostnameID : string)
    (ssl : CustomHostnameSSL) : prog (CustomHostname * goerror) :=
  Ret (zero_ch, Some (ErrNew "Not implemented")).

(** [DeleteCustomHostname]: the response is decoded into a
    [*CustomHostnameResponse] and dropped. *)
Definition DeleteCustomHostname (zoneID customHostnameID : string) : prog goerror :=
  let uri := "/zones/" ++ zoneID ++ "/custom_hostnames/" ++ customHostnameID in
  MakeRequest (mkRequest "DELETE" uri None) (fun r =>
    match r with
    | Failed err => Ret (Some (ErrWrap err errMakeRequestError))
    | Reply res =>
        match Unmarshal (decode_ptr decode_chr zero_chr) None res with
        | inr err => Ret (Some (ErrWrap err errUnmarshalError))
        | inl _ => Ret None
        end
    end).

(** [CreateCustomHostname]: returns the decoded [*CustomHostnameResponse]
    ([None] is the nil pointer). *)
Definition CreateCustomHostname (zoneID : string) (ch : CustomHostname)
    : prog (option CustomHostnameResponse * goerror) :=
  let uri := "/zones/" ++ zoneID ++ "/custom_hostnames" in
  MakeRequest (mkRequest "POST" uri (Some ch)) (fun r =>
    match r with
    | Failed err => Ret (None, Some (ErrWrap err errMakeRequestError))
    | Reply res =>
        match Unmarshal (decode_ptr decode_chr zero_chr) None res with
        | inr err => Ret (None, Some (ErrWrap err errUnmarshalError))
        | inl response => Ret (response, None)
        end
    end).

(** The query values [FilterCustomHostnames] builds. *)
Definition filter_values (page : Z) (filter : CustomHostname) : Values :=
  let v := Values_Set "per_page" "50" [] in
  let v := Values_Set "page" (Itoa page) v in
  if negb (String.eqb (Hostname filter) "") then Values_Set "hostname" (Hostname filter) v
  else v.

Definition filter_uri (zoneID : string) (page : Z) (filter : CustomHostname) : string :=
  let query := "?" ++ Encode (filter_values page filter) in
  "/zones/" ++ zoneID ++ "/custom_hostnames" ++ query.

(** [FilterCustomHostnames]; note that its decode failure is wrapped with
    [errMakeRequestError], as in the source. *)
Definition FilterCustomHostnames (zoneID : string) (page : Z) (filter : CustomHostname)
    : prog (list CustomHostname * ResultInfo * goerror) :=
  MakeRequest (mkRequest "GET" (filter_uri zoneID page filter) None) (fun r =>
    match r with
    | Failed err => Ret ([], zero_result_info, Some (ErrWrap err errMakeRequestError))
    | Reply res =>
        match Unmarshal decode_chlr zero_chlr res with
        | inr err => Ret ([], zero_result_info, Some (ErrWrap err errMakeRequestError))
        | inl customHostnameListResponse =>
            Ret (ListResult customHostnameListResponse, Info customHostnameListResponse, None)
        end
    end).

(** [ListCustomHostnames]. *)
Definition ListCustomHostnames (zoneID : string) (page : Z)
    : prog (list CustomHostname * ResultInfo * goerror) :=
  FilterCustomHostnames zoneID page zero_ch.

Definition not_found : error := ErrNew "the custom hostname could not be found".

(** The loop of [CustomHostnameIDByName] over the first page. *)
Fixpoint find_id (hostname : string) (chs : list CustomHostname) : string * goerror :=
  match chs with
  | [] => ("", Some not_found)
  | ch :: rest => if String.eqb (Hostname ch) hostname then (ID ch, None) else find_id hostname rest
  end.

(** [CustomHostnameIDByName]. *)
Definition CustomHostnameIDByName (zoneID hostname : string) : prog (string * goerror) :=
  bind (FilterCustomHostnames zoneID 1 (mkCustomHostname "" hostname "" zero_ssl None))
    (fun '(customHostnames, _, err) =>
       match err with
       | Some e => Ret ("", Some (ErrWrap e "failed to fetch CustomHostnameIDByName"))
       | None => Ret (find_id hostname customHostnames)
       end).

(** [CustomHostname] (the getter); declared last, its name shadowing the
    type inside this module. *)
Definition CustomHostname (zoneID customHostnameID : string)
    : prog (CustomHostname * goerror) :=
  let uri := "/zones/" ++ zoneID ++ "/custom_hostnames/" ++ customHostnameID in
  MakeRequest (mkRequest "GET" uri None) (fun r =>
    match r with
    | Failed err => Ret (zero_ch, Some (ErrWrap err errMakeRequestError))
    | Reply res =>
        match Unmarshal decode_chr zero_chr res with
        | inr err => Ret (zero_ch, Some (ErrWrap err errUnmarshalError))
        | inl response => Ret (Result response, None)
        end
    end).

End API.

(** ** Reading a query string back

    How a server reads the parameters of a query string, as Go's
    [url.ParseQuery] does: pieces separated by [&], empty pieces skipped, a
    piece split at its first [=] (no [=]: an empty value), key and value
    unescaped with [url.QueryUnescape]; a piece that does not unescape is
    skipped.  This is the reading the claims about "parameters" refer to. *)

(** [url.QueryUnescape]: [%XX] is a byte, [+] a space; a [%] not followed by
    two hex digits is an error. *)
Fixpoint QueryUnescape (s : string) : option string :=
  match s with
  | EmptyString => Some EmptyString
  | String c r =>
      if Ascii.eqb c "%" then
        match r with
        | String h (String l r') =>
            match hex_val h, hex_val l with
            | Some x, Some y => option_map (String (ascii_of_nat (x * 16 + y))) (QueryUnescape r')
            | _, _ => None
            end
        | _ => None
        end
      else if Ascii.eqb c "+" then option_map (String " ") (QueryUnescape r)
      else option_map (String c) (QueryUnescape r)
  end.

Fixpoint split_amp (s : string) : list string :=
  match s with
  | EmptyString => [EmptyString]
  | String c r =>
      if Ascii.eqb c "&" then EmptyString :: split_amp r
      else match split_amp r with
           | p :: ps => String c p :: ps
           | [] => [String c EmptyString]
           end
  end.

Fixpoint split_kv (s : string) : string * string :=
  match s with
  | EmptyString => (EmptyString, EmptyString)
  | String c r =>
      if Ascii.eqb c "=" then (EmptyString, r)
      else let '(k, v) := split_kv r in (String c k, v)
  end.

Definition ParseQuery (q : string) : list (string * string) :=
  flat_map (fun piece =>
              if String.eqb piece "" then []
              else let '(k, v) := split_kv piece in
                   match QueryUnescape k, QueryUnescape v with
                   | Some k', Some v' => [(k', v')]
                   | _, _ => []
                   end)
           (split_amp q).

Fixpoint has_char (c : ascii) (s : string) : bool :=
  match s with
  | EmptyString => false
  | String d r => Ascii.eqb d c || has_char c r
  end.

(** The values given to a parameter, in order. *)
Definition query_get (key : string) (ps : list (string * string)) : list string :=
  map snd (filter (fun p => String.eqb (fst p) key) ps).

(** ** Transports and inputs used by the properties *)

(** The filter [CustomHostnameIDByName] passes. *)
Definition name_filter (hostname : string) : CustomHostname :=
  mkCustomHostname "" hostname "" zero_ssl None.

(** A transport whose every call fails. *)
Definition failing_transport (_ : request) : reply := Failed (ErrNew "connection refused").

(** A transport that answers every request with the same bytes. *)
Definition constant_transport (body : string) (_ : request) : reply := Reply body.

(** A first page with an entry for [A.com], then two for [a.com]. *)
Definition two_matches_page : string :=
  json_text "{'success': true, 'result': [{'id': '0', 'hostname': 'A.com'}, {'id': '1', 'hostname': 'a.com'}, {'id': '2', 'hostname': 'a.com'}], 'result_info': {'page': 1, 'per_page': 50, 'total_count': 3}}".

Definition entry (id host : string) : CustomHostname := mkCustomHostname id host "" zero_ssl None.

(** Bytes that are not JSON, such as an HTML error page. *)
Definition html_page : string := "<html>502 Bad Gateway</html>".

(** A JSON body whose [result] is an array, not an object. *)
Definition array_result_body : string := json_text "{'success': true, 'result': []}".

(** An entry of a response page, with an id and a hostname only. *)
Definition entry_json (i h : string) : jvalue :=
  JObject [("id", JString i); ("hostname", JString h)].

(** A page of such entries, as [{"result": [...]}]. *)
Definition page_json (l : list (string * string)) : jvalue :=
  JObject [("result", JArray (map (fun '(i, h) => entry_json i h) l))].

(** The id of the first pair whose hostname is [hostname]. *)
Fixpoint first_id (hostname : string) (l : list (string * string)) : option string :=
  match l with
  | [] => None
  | (i, h) :: rest => if String.eqb h hostname then Some i else first_id hostname rest
  end.

(** A page with entries [1]/[a.com] and [2]/[b.com]. *)
Definition two_entries_body : string :=
  json_text "{'result': [{'id': '1', 'hostname': 'a.com'}, {'id': '2', 'hostname': 'b.com'}]}".

(** * Properties *)

(** ** Running programs *)

Ltac case_transport :=
  match goal with
  | |- context [match ?t ?r with Reply _ => _ | Failed _ => _ end] =>
      destruct (t r) as [?res | ?err]
  end.

Ltac case_unmarshal :=
  match goal with
  | |- context [match Unmarshal ?d ?z ?b with inl _ => _ | inr _ => _ end] =>
      destruct (Unmarshal d z b)
  end.

Ltac case_reply := simpl; repeat (case_transport || case_unmarshal); simpl.

Lemma run_bind {A B : Type} (t : request -> reply) (p : prog A) (f : A -> prog B) :
  run t (bind p f) =
  let '(rs, a) := run t p in let '(rs', b) := run t (f a) in (rs ++ rs', b)%list.
Proof.
  induction p as [a | r k IH]; simpl.
  - destruct (run t (f a)); reflexivity.
  - rewrite IH. destruct (run t (k (t r))) as [rs a]. destruct (run t (f a)). reflexivity.
Qed.

Lemma run_Filter (t : request -> reply) zoneID page filter :
  run t (API.FilterCustomHostnames zoneID page filter) =
  let r := mkRequest "GET" (API.filter_uri zoneID page filter) None in
  ([r], match t r with
        | Failed err => ([], zero_result_info, Some (ErrWrap err errMakeRequestError))
        | Reply res =>
            match Unmarshal decode_chlr zero_chlr res with
            | inr err => ([], zero_result_info, Some (ErrWrap err errMakeRequestError))
            | inl l => (ListResult l, Info l, None)
            end
        end).
Proof.
  unfold API.FilterCustomHostnames; simpl.
  destruct (t _) as [res | err]; simpl; [| reflexivity].
  destruct (Unmarshal decode_chlr zero_chlr res); reflexivity.
Qed.

Lemma run_IDByName (t : request -> reply) zoneID hostname :
  run t (API.CustomHostnameIDByName zoneID hostname) =
  let '(rs, (chs, _, err)) := run t (API.FilterCustomHostnames zoneID 1 (name_filter hostname)) in
  (rs, match err with
       | Some e => ("", Some (ErrWrap e "failed to fetch CustomHostnameIDByName"))
       | None => API.find_id hostname chs
       end).
Proof.
  unfold API.CustomHostnameIDByName. rewrite run_bind.
  destruct (run t _) as [rs [[chs ri] [e|]]]; simpl; rewrite app_nil_r; reflexivity.
Qed.

Lemma find_id_spec hostname chs :
  (exists ch, In ch chs /\ Hostname ch = hostname /\ API.find_id hostname chs = (ID ch, None))
  \/ ((forall ch, In ch chs -> Hostname ch <> hostname)
      /\ API.find_id hostname chs = ("", Some API.not_found)).
Proof.
  induction chs as [| c rest IH]; simpl.
  - right. split; [tauto | reflexivity].
  - destruct (String.eqb (Hostname c) hostname) eqn:E.
    + left. exists c. apply String.eqb_eq in E. auto.
    + apply String.eqb_neq in E. destruct IH as [(ch & Hin & Hh & Hf) | (Hall & Hf)].
      * left. exists ch. auto.
      * right. split; [| exact Hf]. intros ch [<- | Hin]; auto.
Qed.

Lemma find_id_first hostname pre ch post :
  Hostname ch = hostname -> (forall c, In c pre -> Hostname c <> hostname) ->
  API.find_id hostname (pre ++ ch :: post) = (ID ch, None).
Proof.
  intros Hh Hpre. induction pre as [| c pre IH]; simpl.
  - rewrite Hh, String.eqb_refl. reflexivity.
  - destruct (String.eqb (Hostname c) hostname) eqn:E.
    + apply String.eqb_eq in E. exfalso. apply (Hpre c); simpl; auto.
    + apply IH. intros c' Hc'. apply Hpre. simpl; auto.
Qed.

(** ** C1 *)

(** C1: [CustomHostnameIDByName zoneID hostname] makes exactly one request,
    the one of [FilterCustomHostnames zoneID 1 {Hostname: hostname}]; its
    result depends on the reply to that page-1 request only (so a match on a
    later page is never seen); when that call succeeds it returns, with a nil
    error, the [ID] of an entry of the returned page whose [Hostname] is
    exactly [hostname], or, when no entry matches exactly, the empty id and
    the not-found error. *)
Theorem CustomHostnameIDByName_first_page (t : request -> reply) (zoneID hostname : string) :
  let req := mkRequest "GET" (API.filter_uri zoneID 1 (name_filter hostname)) None in
  fst (run t (API.CustomHostnameIDByName zoneID hostname))
    = fst (run t (API.FilterCustomHostnames zoneID 1 (name_filter hostname)))
  /\ fst (run t (API.CustomHostnameIDByName zoneID hostname)) = [req]
  /\ (forall t', t' req = t req ->
        run t' (API.CustomHostnameIDByName zoneID hostname)
        = run t (API.CustomHostnameIDByName zoneID hostname))
  /\ (forall chs ri,
        snd (run t (API.FilterCustomHostnames zoneID 1 (name_filter hostname))) = (chs, ri, None) ->
        (exists ch, In ch chs /\ Hostname ch = hostname
                    /\ snd (run t (API.CustomHostnameIDByName zoneID hostname)) = (ID ch, None))
        \/ ((forall ch, In ch chs -> Hostname ch <> hostname)
            /\ snd (run t (API.CustomHostnameIDByName zoneID hostname))
               = ("", Some API.not_found))).
Proof.
  intros req. rewrite !run_IDByName, !run_Filter. fold req.
  split; [| split; [| split]].
  - case_reply; reflexivity.
  - case_reply; reflexivity.
  - intros t' Ht'. rewrite run_IDByName, run_Filter. unfold req in *.
    rewrite Ht'. reflexivity.
  - intros chs ri H. revert H. case_reply; intros H; try discriminate.
    injection H as <- <-. apply find_id_spec.
Qed.

(** ** C2 *)

(** C2: [ListCustomHostnames zoneID page] is [FilterCustomHostnames] with the
    empty filter: the same program, hence the same requests and the same
    (hostnames, ResultInfo, error) triple under every transport. *)
Theorem ListCustomHostnames_is_Filter_empty (zoneID : string) (page : Z) :
  API.ListCustomHostnames zoneID page = API.FilterCustomHostnames zoneID page zero_ch
  /\ forall t, run t (API.ListCustomHostnames zoneID page)
               = run t (API.FilterCustomHostnames zoneID page zero_ch).
Proof. split; reflexivity. Qed.

(** ** C3 *)

(** C3: [UpdateCustomHostnameSSL] makes no request under any transport and
    returns the zero [CustomHostname] with the error
    [errors.New("Not implemented")]. *)
Theorem UpdateCustomHostnameSSL_not_implemented
    (zoneID customHostnameID : string) (ssl : CustomHostnameSSL) :
  API.UpdateCustomHostnameSSL zoneID customHostnameID ssl
    = Ret (zero_ch, Some (ErrNew "Not implemented"))
  /\ forall t, run t (API.UpdateCustomHostnameSSL zoneID customHostnameID ssl)
               = ([], (zero_ch, Some (ErrNew "Not implemented"))).
Proof. split; reflexivity. Qed.

(** ** C9 *)

(** C9: whenever [FilterCustomHostnames] returns a non-nil error, its
    hostname list is empty and its [ResultInfo] is the zero value. *)
Theorem FilterCustomHostnames_error_no_data (t : request -> reply) (zoneID : string)
    (page : Z) (filter : CustomHostname) (chs : list CustomHostname) (ri : ResultInfo)
    (e : error)
    (Herr : snd (run t (API.FilterCustomHostnames zoneID page filter)) = (chs, ri, Some e)) :
  chs = [] /\ ri = zero_result_info.
Proof.
  revert Herr. rewrite run_Filter. case_reply; intros H; inversion H; auto.
Qed.

Lemma FilterCustomHostnames_error_no_data_witness :
  snd (run failing_transport (API.FilterCustomHostnames "z1" 1 zero_ch))
    = ([], zero_result_info,
       Some (ErrWrap (ErrNew "connection refused") errMakeRequestError))
  /\ ([] : list CustomHostname) = [] /\ zero_result_info = zero_result_info.
Proof.
  split; [reflexivity |].
  exact (FilterCustomHostnames_error_no_data failing_transport "z1" 1 zero_ch [] zero_result_info
           (ErrWrap (ErrNew "connection refused") errMakeRequestError) eq_refl).
Defined.

(** ** C10 *)

(** C10: when the first page holds several entries whose [Hostname] is
    exactly the query, [CustomHostnameIDByName] returns the [ID] of the first
    of them, in the order of the page. *)
Theorem CustomHostnameIDByName_first_match (t : request -> reply) (zoneID hostname : string)
    (ri : ResultInfo) (pre : list CustomHostname) (ch : CustomHostname)
    (post : list CustomHostname)
    (Hpage : snd (run t (API.FilterCustomHostnames zoneID 1 (name_filter hostname)))
             = ((pre ++ ch :: post)%list, ri, None))
    (Hch : Hostname ch = hostname)
    (Hpre : forall c, In c pre -> Hostname c <> hostname) :
  snd (run t (API.CustomHostnameIDByName zoneID hostname)) = (ID ch, None).
Proof.
  rewrite run_IDByName.
  destruct (run t (API.FilterCustomHostnames zoneID 1 (name_filter hostname)))
    as [rs [[chs ri'] err]].
  simpl in Hpage. injection Hpage as -> _ ->. apply find_id_first; assumption.
Qed.

Lemma CustomHostnameIDByName_first_match_witness :
  snd (run (constant_transport two_matches_page) (API.CustomHostnameIDByName "z1" "a.com"))
  = ("1", None).
Proof.
  apply (CustomHostnameIDByName_first_match (constant_transport two_matches_page) "z1" "a.com"
           (mkResultInfo 1 50 3) [entry "0" "A.com"] (entry "1" "a.com") [entry "2" "a.com"]).
  - vm_compute. reflexivity.
  - reflexivity.
  - intros c [<- | []]. discriminate.
Defined.

(** ** Query strings *)

Lemma str_app_assoc (a b c : string) : (a ++ b) ++ c = a ++ (b ++ c).
Proof. induction a as [| x a IH]; simpl; [reflexivity | rewrite IH; reflexivity]. Qed.

Lemma str_app_nil_r (a : string) : a ++ "" = a.
Proof. induction a as [| x a IH]; simpl; [reflexivity | rewrite IH; reflexivity]. Qed.

Lemma escape_byte_unescape (c : ascii) (r : string) :
  QueryUnescape (escape_byte c ++ r) = option_map (String c) (QueryUnescape r).
Proof.
  destruct c as [[] [] [] [] [] [] [] []]; simpl; try reflexivity;
    destruct (QueryUnescape r); reflexivity.
Qed.

Lemma QueryUnescape_QueryEscape (s : string) : QueryUnescape (QueryEscape s) = Some s.
Proof.
  induction s as [| c r IH]; simpl; [reflexivity |].
  rewrite escape_byte_unescape, IH. reflexivity.
Qed.

Lemma has_char_app (c : ascii) (a b : string) :
  has_char c (a ++ b) = has_char c a || has_char c b.
Proof.
  induction a as [| d a IH]; simpl; [reflexivity |].
  rewrite IH, orb_assoc. reflexivity.
Qed.

Lemma escape_byte_no_amp_eq (c : ascii) :
  has_char "&" (escape_byte c) = false /\ has_char "=" (escape_byte c) = false.
Proof. destruct c as [[] [] [] [] [] [] [] []]; split; reflexivity. Qed.

(** An escaped string holds no [&] and no [=]: it stays inside one query
    piece and one key or value. *)
Lemma QueryEscape_no_amp_eq (s : string) :
  has_char "&" (QueryEscape s) = false /\ has_char "=" (QueryEscape s) = false.
Proof.
  induction s as [| c r [IH1 IH2]]; simpl; [split; reflexivity |].
  destruct (escape_byte_no_amp_eq c) as [H1 H2].
  rewrite !has_char_app, H1, H2, IH1, IH2. split; reflexivity.
Qed.

Lemma split_amp_app (a b : string) :
  has_char "&" a = false -> split_amp (a ++ String "&" b) = a :: split_amp b.
Proof.
  induction a as [| c a IH]; simpl; intros H; [reflexivity |].
  apply orb_false_iff in H as [Hc Ha]. rewrite Hc, (IH Ha). reflexivity.
Qed.

Lemma split_amp_single (a : string) : has_char "&" a = false -> split_amp a = [a].
Proof.
  induction a as [| c a IH]; simpl; intros H; [reflexivity |].
  apply orb_false_iff in H as [Hc Ha]. rewrite Hc, (IH Ha). reflexivity.
Qed.

(** The decimal rendering of an [int] is digits, after a [-] when
    negative: [QueryEscape] leaves it as it is. *)
Lemma QueryEscape_uint (d : Decimal.uint) :
  QueryEscape (NilEmpty.string_of_uint d) = NilEmpty.string_of_uint d.
Proof. induction d; simpl; try rewrite IHd; reflexivity. Qed.

Lemma QueryEscape_Itoa (n : Z) : QueryEscape (Itoa n) = Itoa n.
Proof.
  unfold Itoa, NilEmpty.string_of_int. destruct (Z.to_int n); simpl;
    rewrite ?QueryEscape_uint; reflexivity.
Qed.

Lemma QueryUnescape_Itoa (n : Z) : QueryUnescape (Itoa n) = Some (Itoa n).
Proof. rewrite <- (QueryEscape_Itoa n) at 1. apply QueryUnescape_QueryEscape. Qed.

Lemma Itoa_no_amp (n : Z) : has_char "&" (Itoa n) = false.
Proof. rewrite <- QueryEscape_Itoa. apply QueryEscape_no_amp_eq. Qed.

(** The query [FilterCustomHostnames] sends: keys in sorted order,
    [hostname] first when the filter has one. *)
Lemma Encode_filter_values (page : Z) (filter : CustomHostname) :
  Encode (API.filter_values page filter) =
  (if String.eqb (Hostname filter) "" then ""
   else "hostname=" ++ QueryEscape (Hostname filter) ++ "&")
  ++ "page=" ++ Itoa page ++ "&per_page=50".
Proof.
  unfold API.filter_values. pose proof (QueryEscape_Itoa page) as HI.
  remember (Itoa page) as ip eqn:Hip. clear Hip.
  destruct (String.eqb (Hostname filter) "") eqn:E; unfold Encode; simpl.
  - rewrite HI. reflexivity.
  - rewrite HI, !str_app_assoc. reflexivity.
Qed.

(** The parameters a server reads from that query. *)
Lemma ParseQuery_filter_values (page : Z) (filter : CustomHostname) :
  ParseQuery (Encode (API.filter_values page filter)) =
  ((if String.eqb (Hostname filter) "" then [] else [("hostname", Hostname filter)])
   ++ [("page", Itoa page); ("per_page", "50")])%list.
Proof.
  rewrite Encode_filter_values.
  pose proof (QueryUnescape_Itoa page) as HU. pose proof (Itoa_no_amp page) as HA.
  remember (Itoa page) as ip eqn:Hip. clear Hip.
  assert (Hpage : split_amp ("page=" ++ ip ++ "&per_page=50") = ["page=" ++ ip; "per_page=50"]).
  { change ("page=" ++ ip ++ "&per_page=50") with ("page=" ++ (ip ++ String "&" "per_page=50")).
    rewrite <- str_app_assoc, split_amp_app; [reflexivity |].
    rewrite has_char_app, HA. reflexivity. }
  destruct (String.eqb (Hostname filter) "") eqn:E; unfold ParseQuery.
  - change (split_amp ("" ++ ?x)) with (split_amp x). rewrite Hpage. simpl. rewrite HU.
    reflexivity.
  - rewrite !str_app_assoc. change ("&" ++ ?r) with (String "&" r).
    rewrite <- str_app_assoc, split_amp_app, Hpage.
    + simpl. rewrite QueryUnescape_QueryEscape, HU. reflexivity.
    + rewrite has_char_app. simpl. apply QueryEscape_no_amp_eq.
Qed.

(** ** C4 *)

(** C4: the query of [FilterCustomHostnames] (the part of its URI after
    [?]) gives [per_page] the one value [50] and [page] the one value
    [strconv.Itoa(page)]; it has no [hostname] parameter when the filter's
    [Hostname] is empty, and exactly one, equal to that [Hostname], when it
    is not. *)
Theorem FilterCustomHostnames_query_params (zoneID : string) (page : Z)
    (filter : CustomHostname) :
  let query := Encode (API.filter_values page filter) in
  API.filter_uri zoneID page filter = "/zones/" ++ zoneID ++ "/custom_hostnames" ++ "?" ++ query
  /\ query_get "per_page" (ParseQuery query) = ["50"]
  /\ query_get "page" (ParseQuery query) = [Itoa page]
  /\ query_get "hostname" (ParseQuery query)
     = (if String.eqb (Hostname filter) "" then [] else [Hostname filter]).
Proof.
  intros query. unfold query. rewrite ParseQuery_filter_values.
  split; [reflexivity |].
  destruct (String.eqb (Hostname filter) "") eqn:E; simpl; repeat split.
Qed.

(** ** C8 *)

(** C8, as stated, fails: for page 2 and the filter [a.com] the URI is not
    [...?per_page=50&page=2&hostname=a.com] but has the keys in sorted
    order; with no filter it is not [...?per_page=50&page=2] either. *)
Lemma FilterCustomHostnames_uri_order_counterexample :
  API.filter_uri "z1" 2 (name_filter "a.com")
    = "/zones/z1/custom_hostnames?hostname=a.com&page=2&per_page=50"
  /\ API.filter_uri "z1" 2 (name_filter "a.com")
    <> "/zones/z1/custom_hostnames?per_page=50&page=2&hostname=a.com"
  /\ API.filter_uri "z1" 2 zero_ch = "/zones/z1/custom_hostnames?page=2&per_page=50"
  /\ API.filter_uri "z1" 2 zero_ch <> "/zones/z1/custom_hostnames?per_page=50&page=2".
Proof. vm_compute. repeat split; discriminate. Qed.

(** C8 (amended): the URI of [FilterCustomHostnames] is
    [/zones/{zoneID}/custom_hostnames?] followed by
    [hostname=H&page=N&per_page=50] when the filter hostname [H] is
    non-empty and by [page=N&per_page=50] when it is empty: [url.Values]
    encodes its keys in sorted order, [H] query-escaped and [N] the decimal
    rendering of the page. *)
Theorem FilterCustomHostnames_uri (zoneID : string) (page : Z) (filter : CustomHostname) :
  API.filter_uri zoneID page filter =
  "/zones/" ++ zoneID ++ "/custom_hostnames?"
  ++ (if String.eqb (Hostname filter) "" then ""
      else "hostname=" ++ QueryEscape (Hostname filter) ++ "&")
  ++ "page=" ++ Itoa page ++ "&per_page=50".
Proof.
  unfold API.filter_uri. rewrite Encode_filter_values. reflexivity.
Qed.

(** ** C5 *)

(** C5 (code_bug): when the transport returns bytes that do not decode,
    [FilterCustomHostnames] wraps the decode error with the transport
    context [errMakeRequestError], while its siblings [CreateCustomHostname],
    [CustomHostname] and [DeleteCustomHostname] wrap the same decode error
    with [errUnmarshalError]. *)
Theorem FilterCustomHostnames_decode_error_context :
  snd (run (constant_transport html_page) (API.FilterCustomHostnames "z1" 1 zero_ch))
    = ([], zero_result_info, Some (ErrWrap ErrSyntax errMakeRequestError))
  /\ snd (run (constant_transport html_page) (API.CustomHostname "z1" "abc123"))
    = (zero_ch, Some (ErrWrap ErrSyntax errUnmarshalError))
  /\ snd (run (constant_transport html_page) (API.CreateCustomHostname "z1" (entry "" "a.com")))
    = (None, Some (ErrWrap ErrSyntax errUnmarshalError))
  /\ snd (run (constant_transport html_page) (API.DeleteCustomHostname "z1" "abc123"))
    = Some (ErrWrap ErrSyntax errUnmarshalError)
  /\ errMakeRequestError <> errUnmarshalError.
Proof. vm_compute. repeat split; discriminate. Qed.

(** ** C6 *)

(** C6, as stated, fails: the body [{"success": true, "result": []}]
    parses as JSON, yet [DeleteCustomHostname] returns a decode error, the
    [result] member not fitting the envelope's [CustomHostname]. *)
Lemma DeleteCustomHostname_json_counterexample :
  parse_json array_result_body
    = Some (JObject [("success", JBool true); ("result", JArray [])])
  /\ snd (run (constant_transport array_result_body) (API.DeleteCustomHostname "z1" "abc123"))
     = Some (ErrWrap (ErrUnmarshalType "array" "cloudflare.CustomHostname") errUnmarshalError).
Proof. vm_compute. split; reflexivity. Qed.

(** C6 (amended): [DeleteCustomHostname] makes one [DELETE] request to
    [/zones/{zoneID}/custom_hostnames/{id}].  When the transport fails it
    returns the transport error wrapped with [errMakeRequestError]; when
    the bytes do not decode into the [*CustomHostnameResponse] envelope (not
    JSON, or JSON of another shape) it returns the decode error wrapped with
    [errUnmarshalError]; when they decode it returns nil whatever they hold
    (the decoded envelope is dropped), in particular for JSON [null]. *)
Theorem DeleteCustomHostname_result (t : request -> reply) (zoneID customHostnameID : string) :
  let r := mkRequest "DELETE" ("/zones/" ++ zoneID ++ "/custom_hostnames/" ++ customHostnameID) None in
  fst (run t (API.DeleteCustomHostname zoneID customHostnameID)) = [r]
  /\ (forall e, t r = Failed e ->
        snd (run t (API.DeleteCustomHostname zoneID customHostnameID))
        = Some (ErrWrap e errMakeRequestError))
  /\ (forall b d, t r = Reply b -> Unmarshal (decode_ptr decode_chr zero_chr) None b = inr d ->
        snd (run t (API.DeleteCustomHostname zoneID customHostnameID))
        = Some (ErrWrap d errUnmarshalError))
  /\ (forall b p, t r = Reply b -> Unmarshal (decode_ptr decode_chr zero_chr) None b = inl p ->
        snd (run t (API.DeleteCustomHostname zoneID customHostnameID)) = None)
  /\ (forall b, t r = Reply b -> parse_json b = Some JNull ->
        snd (run t (API.DeleteCustomHostname zoneID customHostnameID)) = None).
Proof.
  intros r. unfold API.DeleteCustomHostname. unfold r. simpl.
  split; [| split; [| split; [| split]]].
  - case_reply; reflexivity.
  - intros e He. rewrite He. reflexivity.
  - intros b d Hr Hd. rewrite Hr, Hd. reflexivity.
  - intros b p Hr Hp. rewrite Hr, Hp. reflexivity.
  - intros b Hr Hb. rewrite Hr. unfold Unmarshal. rewrite Hb. reflexivity.
Qed.

(** ** C7 *)

(** C7, as stated, fails: when the response body is JSON [null],
    [CreateCustomHostname] succeeds (nil error) and returns a nil
    [*CustomHostnameResponse]: no envelope, no result, no id. *)
Lemma CreateCustomHostname_null_counterexample :
  snd (run (constant_transport "null") (API.CreateCustomHostname "z1" (entry "" "a.example.com")))
  = (None, None).
Proof. vm_compute. reflexivity. Qed.

(** C7 (amended): [CreateCustomHostname zoneID ch] makes one [POST] to
    [/zones/{zoneID}/custom_hostnames] with [ch] as the body.  A failed call
    gives a nil response and the transport error wrapped with
    [errMakeRequestError]; bytes that do not decode into
    [*CustomHostnameResponse] (not JSON, or JSON of another shape) give a nil
    response and the decode error wrapped with [errUnmarshalError];
    otherwise the decoded envelope is returned with a nil error: a nil
    pointer for JSON [null], and for [{"result": {"id": i, "hostname": h}}]
    the envelope whose [Result] has [ID] [i] and [Hostname] [h]. *)
Theorem CreateCustomHostname_result (t : request -> reply) (zoneID : string)
    (ch : CustomHostname) :
  let r := mkRequest "POST" ("/zones/" ++ zoneID ++ "/custom_hostnames") (Some ch) in
  fst (run t (API.CreateCustomHostname zoneID ch)) = [r]
  /\ (forall e, t r = Failed e ->
        snd (run t (API.CreateCustomHostname zoneID ch))
        = (None, Some (ErrWrap e errMakeRequestError)))
  /\ (forall b d, t r = Reply b -> Unmarshal (decode_ptr decode_chr zero_chr) None b = inr d ->
        snd (run t (API.CreateCustomHostname zoneID ch))
        = (None, Some (ErrWrap d errUnmarshalError)))
  /\ (forall b p, t r = Reply b -> Unmarshal (decode_ptr decode_chr zero_chr) None b = inl p ->
        snd (run t (API.CreateCustomHostname zoneID ch)) = (p, None))
  /\ (forall b, t r = Reply b -> parse_json b = Some JNull ->
        snd (run t (API.CreateCustomHostname zoneID ch)) = (None, None))
  /\ (forall b i h, t r = Reply b ->
        parse_json b = Some (JObject [("result", JObject [("id", JString i); ("hostname", JString h)])]) ->
        snd (run t (API.CreateCustomHostname zoneID ch))
        = (Some (mkCustomHostnameResponse (entry i h) mkResponse), None)).
Proof.
  intros r. unfold API.CreateCustomHostname. unfold r. simpl.
  split; [| split; [| split; [| split; [| split]]]].
  - case_reply; reflexivity.
  - intros e He. rewrite He. reflexivity.
  - intros b d Hr Hd. rewrite Hr, Hd. reflexivity.
  - intros b p Hr Hp. rewrite Hr, Hp. reflexivity.
  - intros b Hr Hb. rewrite Hr. unfold Unmarshal. rewrite Hb. reflexivity.
  - intros b i h Hr Hb. rewrite Hr. unfold Unmarshal. rewrite Hb. reflexivity.
Qed.

(** * Further properties of custom_hostname.go *)

(** ** The getter [CustomHostname] *)

(** [CustomHostname zoneID id] makes one [GET] to
    [/zones/{zoneID}/custom_hostnames/{id}]; a failed call gives the zero
    value and the error wrapped with [errMakeRequestError], bytes that do
    not decode the zero value and the decode error wrapped with
    [errUnmarshalError]; otherwise the envelope's [Result], with a nil error.
    A JSON [null] body decodes into the zero envelope: the zero value with a
    nil error. *)
Theorem CustomHostname_get_result (t : request -> reply) (zoneID customHostnameID : string) :
  let r := mkRequest "GET" ("/zones/" ++ zoneID ++ "/custom_hostnames/" ++ customHostnameID) None in
  fst (run t (API.CustomHostname zoneID customHostnameID)) = [r]
  /\ (forall e, t r = Failed e ->
        snd (run t (API.CustomHostname zoneID customHostnameID))
        = (zero_ch, Some (ErrWrap e errMakeRequestError)))
  /\ (forall b d, t r = Reply b -> Unmarshal decode_chr zero_chr b = inr d ->
        snd (run t (API.CustomHostname zoneID customHostnameID))
        = (zero_ch, Some (ErrWrap d errUnmarshalError)))
  /\ (forall b env, t r = Reply b -> Unmarshal decode_chr zero_chr b = inl env ->
        snd (run t (API.CustomHostname zoneID customHostnameID)) = (Result env, None))
  /\ (forall b, t r = Reply b -> parse_json b = Some JNull ->
        snd (run t (API.CustomHostname zoneID customHostnameID)) = (zero_ch, None))
  /\ (forall b i h, t r = Reply b -> parse_json b = Some (JObject [("result", entry_json i h)]) ->
        snd (run t (API.CustomHostname zoneID customHostnameID)) = (entry i h, None)).
Proof.
  intros r. unfold API.CustomHostname. unfold r. simpl.
  split; [| split; [| split; [| split; [| split]]]].
  - case_reply; reflexivity.
  - intros e He. rewrite He. reflexivity.
  - intros b d Hr Hd. rewrite Hr, Hd. reflexivity.
  - intros b env Hr He. rewrite Hr, He. reflexivity.
  - intros b Hr Hb. rewrite Hr. unfold Unmarshal. rewrite Hb. reflexivity.
  - intros b i h Hr Hb. rewrite Hr. unfold Unmarshal. rewrite Hb. reflexivity.
Qed.

(** [CreateCustomHostname] (a pointer target) and [CustomHostname] (a value
    target) read the same response bytes alike: both fail with the same
    decode error, or Create returns the envelope [env] and the getter its
    [Result], or (JSON [null]) Create returns a nil pointer and the getter
    the zero value. *)
Lemma snd_run_Create (t : request -> reply) zoneID ch :
  snd (run t (API.CreateCustomHostname zoneID ch)) =
  match t (mkRequest "POST" ("/zones/" ++ zoneID ++ "/custom_hostnames") (Some ch)) with
  | Failed err => (None, Some (ErrWrap err errMakeRequestError))
  | Reply res =>
      match Unmarshal (decode_ptr decode_chr zero_chr) None res with
      | inr err => (None, Some (ErrWrap err errUnmarshalError))
      | inl response => (response, None)
      end
  end.
Proof. unfold API.CreateCustomHostname. case_reply; reflexivity. Qed.

Lemma snd_run_Get (t : request -> reply) zoneID customHostnameID :
  snd (run t (API.CustomHostname zoneID customHostnameID)) =
  match t (mkRequest "GET" ("/zones/" ++ zoneID ++ "/custom_hostnames/" ++ customHostnameID) None) with
  | Failed err => (zero_ch, Some (ErrWrap err errMakeRequestError))
  | Reply res =>
      match Unmarshal decode_chr zero_chr res with
      | inr err => (zero_ch, Some (ErrWrap err errUnmarshalError))
      | inl response => (Result response, None)
      end
  end.
Proof. unfold API.CustomHostname. case_reply; reflexivity. Qed.

Theorem Create_Get_decode_agree (zoneID ch_id : string) (ch : CustomHostname) (b : string) :
  let create := snd (run (constant_transport b) (API.CreateCustomHostname zoneID ch)) in
  let get := snd (run (constant_transport b) (API.CustomHostname zoneID ch_id)) in
  (exists d, create = (None, Some (ErrWrap d errUnmarshalError))
             /\ get = (zero_ch, Some (ErrWrap d errUnmarshalError)))
  \/ (exists env, create = (Some env, None) /\ get = (Result env, None))
  \/ (create = (None, None) /\ get = (zero_ch, None)).
Proof.
  cbv zeta. rewrite snd_run_Create, snd_run_Get. unfold constant_transport, Unmarshal.
  destruct (parse_json b) as [j |]; [| left; exists ErrSyntax; split; reflexivity].
  destruct j as [| bb | lit | str | items | ms];
    [right; right; split; reflexivity | ..];
    unfold decode_ptr; unfold dbind at 1;
    match goal with
    | |- context [decode_chr zero_chr ?j] => destruct (decode_chr zero_chr j) as [env | d]
    end;
    [right; left; exists env; split; reflexivity | left; exists d; split; reflexivity
    |right; left; exists env; split; reflexivity | left; exists d; split; reflexivity
    |right; left; exists env; split; reflexivity | left; exists d; split; reflexivity
    |right; left; exists env; split; reflexivity | left; exists d; split; reflexivity
    |right; left; exists env; split; reflexivity | left; exists d; split; reflexivity].
Qed.

(** ** [FilterCustomHostnames] *)

(** Of the filter, only [Hostname] matters: two filters with the same
    [Hostname] give the same requests and results under every transport. *)
Theorem FilterCustomHostnames_only_hostname (t : request -> reply) (zoneID : string)
    (page : Z) (f1 f2 : CustomHostname) (Hh : Hostname f1 = Hostname f2) :
  run t (API.FilterCustomHostnames zoneID page f1) = run t (API.FilterCustomHostnames zoneID page f2).
Proof.
  unfold API.FilterCustomHostnames, API.filter_uri, API.filter_values. rewrite Hh. reflexivity.
Qed.

Lemma FilterCustomHostnames_only_hostname_witness :
  run failing_transport (API.FilterCustomHostnames "z1" 3 zero_ch)
  = run failing_transport
      (API.FilterCustomHostnames "z1" 3
         (mkCustomHostname "abc123" "" "origin.example.com" (mkCustomHostnameSSL "" "http" "dv" "" "") None)).
Proof. apply FilterCustomHostnames_only_hostname. reflexivity. Defined.

Lemma decode_items_length {T : Type} (dec : T -> jvalue -> dres T) (zero : T) cur items xs :
  decode_items dec zero cur items = inl xs -> length xs = length items.
Proof.
  revert cur xs. induction items as [| j rest IH]; simpl; intros cur xs H.
  - injection H as <-. reflexivity.
  - destruct (match cur with x :: r => (x, r) | [] => (zero, []) end) as [old cur'].
    destruct (dec old j) as [x |]; simpl in H; [| discriminate].
    destruct (decode_items dec zero cur' rest) as [ys |] eqn:E; simpl in H; [| discriminate].
    injection H as <-. simpl. rewrite (IH cur' ys E). reflexivity.
Qed.

(** When the response is [{"result": [...]}] and the call succeeds, the
    returned list has one entry per element of the [result] array. *)
Theorem FilterCustomHostnames_length (t : request -> reply) (zoneID : string) (page : Z)
    (filter : CustomHostname) (b : string) (items : list jvalue)
    (chs : list CustomHostname) (ri : ResultInfo)
    (Hr : t (mkRequest "GET" (API.filter_uri zoneID page filter) None) = Reply b)
    (Hb : parse_json b = Some (JObject [("result", JArray items)]))
    (Hok : snd (run t (API.FilterCustomHostnames zoneID page filter)) = (chs, ri, None)) :
  length chs = length items.
Proof.
  revert Hok. rewrite run_Filter. cbv zeta. rewrite Hr. unfold Unmarshal. rewrite Hb. simpl.
  destruct (decode_items decode_ch zero_ch [] items) as [xs |] eqn:E; simpl; intros H;
    [| discriminate].
  injection H as <- _. apply (decode_items_length _ _ _ _ _ E).
Qed.

Lemma FilterCustomHostnames_length_witness :
  length [entry "1" "a.com"; entry "2" "b.com"] = 2%nat.
Proof.
  apply (FilterCustomHostnames_length (constant_transport two_entries_body)
           "z1" 1 zero_ch two_entries_body [entry_json "1" "a.com"; entry_json "2" "b.com"]
           [entry "1" "a.com"; entry "2" "b.com"] zero_result_info);
    vm_compute; reflexivity.
Defined.

Lemma decode_page_entries (l : list (string * string)) :
  decode_items decode_ch zero_ch [] (map (fun '(i, h) => entry_json i h) l)
  = inl (map (fun '(i, h) => entry i h) l).
Proof.
  induction l as [| [i h] l IH]; simpl; [reflexivity |].
  rewrite IH. reflexivity.
Qed.

(** When the response is a page [{"result": [{"id": i, "hostname": h}, ...]}],
    [FilterCustomHostnames] returns its entries in the page's order, with
    the zero [ResultInfo] (the response has no [result_info]) and a nil
    error. *)
Theorem FilterCustomHostnames_page (t : request -> reply) (zoneID : string) (page : Z)
    (filter : CustomHostname) (b : string) (l : list (string * string))
    (Hr : t (mkRequest "GET" (API.filter_uri zoneID page filter) None) = Reply b)
    (Hb : parse_json b = Some (page_json l)) :
  snd (run t (API.FilterCustomHostnames zoneID page filter))
  = (map (fun '(i, h) => entry i h) l, zero_result_info, None).
Proof.
  rewrite run_Filter. cbv zeta. rewrite Hr. unfold Unmarshal. rewrite Hb. simpl.
  rewrite decode_page_entries. reflexivity.
Qed.

Lemma FilterCustomHostnames_page_witness :
  snd (run (constant_transport two_entries_body) (API.FilterCustomHostnames "z1" 1 zero_ch))
  = ([entry "1" "a.com"; entry "2" "b.com"], zero_result_info, None).
Proof.
  apply (FilterCustomHostnames_page _ "z1" 1 zero_ch two_entries_body
           [("1", "a.com"); ("2", "b.com")]); vm_compute; reflexivity.
Defined.

Lemma find_id_entries (hostname : string) (l : list (string * string)) :
  API.find_id hostname (map (fun '(i, h) => entry i h) l)
  = match first_id hostname l with
    | Some i => (i, None)
    | None => ("", Some API.not_found)
    end.
Proof.
  induction l as [| [i h] l IH]; simpl; [reflexivity |].
  destruct (String.eqb h hostname); [reflexivity | exact IH].
Qed.

(** [CustomHostnameIDByName] over such a page: the id of the first pair
    whose hostname is the query, with a nil error, else the empty id and
    the not-found error. *)
Theorem CustomHostnameIDByName_page (t : request -> reply) (zoneID hostname : string)
    (b : string) (l : list (string * string))
    (Hr : t (mkRequest "GET" (API.filter_uri zoneID 1 (name_filter hostname)) None) = Reply b)
    (Hb : parse_json b = Some (page_json l)) :
  snd (run t (API.CustomHostnameIDByName zoneID hostname))
  = match first_id hostname l with
    | Some i => (i, None)
    | None => ("", Some API.not_found)
    end.
Proof.
  rewrite run_IDByName, run_Filter. cbv zeta. rewrite Hr. unfold Unmarshal. rewrite Hb. simpl.
  rewrite decode_page_entries. apply find_id_entries.
Qed.

Lemma CustomHostnameIDByName_page_witness :
  snd (run (constant_transport two_entries_body) (API.CustomHostnameIDByName "z1" "b.com"))
  = ("2", None).
Proof.
  apply (CustomHostnameIDByName_page _ "z1" "b.com" two_entries_body
           [("1", "a.com"); ("2", "b.com")]); vm_compute; reflexivity.
Defined.

(** A JSON [null] response decodes without error into the zero list
    envelope: [FilterCustomHostnames] succeeds with no entries and the zero
    [ResultInfo], and [CustomHostnameIDByName] then reports not found. *)
Theorem null_page_not_found (t : request -> reply) (zoneID hostname : string) (b : string)
    (Hr : t (mkRequest "GET" (API.filter_uri zoneID 1 (name_filter hostname)) None) = Reply b)
    (Hb : parse_json b = Some JNull) :
  snd (run t (API.FilterCustomHostnames zoneID 1 (name_filter hostname)))
    = ([], zero_result_info, None)
  /\ snd (run t (API.CustomHostnameIDByName zoneID hostname)) = ("", Some API.not_found).
Proof.
  rewrite run_IDByName, !run_Filter. cbv zeta. rewrite Hr. unfold Unmarshal. rewrite Hb.
  split; reflexivity.
Qed.

Lemma null_page_not_found_witness :
  snd (run (constant_transport "null") (API.CustomHostnameIDByName "z1" "a.com"))
  = ("", Some API.not_found).
Proof.
  apply (null_page_not_found (constant_transport "null") "z1" "a.com" "null");
    vm_compute; reflexivity.
Defined.

(** ** [CustomHostnameIDByName] *)

(** The errors of the page-1 call reach the caller wrapped twice: a failed
    transport call [e] as [Wrap(Wrap(e, errMakeRequestError), "failed to
    fetch CustomHostnameIDByName")], and an undecodable response likewise
    (with the same [errMakeRequestError] context), always with the empty
    id. *)
Theorem CustomHostnameIDByName_error_chain (t : request -> reply) (zoneID hostname : string) :
  let r := mkRequest "GET" (API.filter_uri zoneID 1 (name_filter hostname)) None in
  (forall e, t r = Failed e ->
     snd (run t (API.CustomHostnameIDByName zoneID hostname))
     = ("", Some (ErrWrap (ErrWrap e errMakeRequestError) "failed to fetch CustomHostnameIDByName")))
  /\ (forall b d, t r = Reply b -> Unmarshal decode_chlr zero_chlr b = inr d ->
     snd (run t (API.CustomHostnameIDByName zoneID hostname))
     = ("", Some (ErrWrap (ErrWrap d errMakeRequestError) "failed to fetch CustomHostnameIDByName"))).
Proof.
  intros r. unfold r. rewrite run_IDByName, run_Filter. cbv zeta. split.
  - intros e He. rewrite He. reflexivity.
  - intros b d Hr Hd. rewrite Hr, Hd. reflexivity.
Qed.

(** [CustomHostnameIDByName] never returns a non-empty id together with an
    error. *)
Theorem CustomHostnameIDByName_error_empty_id (t : request -> reply) (zoneID hostname : string)
    (id : string) (e : error)
    (Herr : snd (run t (API.CustomHostnameIDByName zoneID hostname)) = (id, Some e)) :
  id = "".
Proof.
  revert Herr. rewrite run_IDByName.
  destruct (run t (API.FilterCustomHostnames zoneID 1 (name_filter hostname)))
    as [rs [[chs ri] [e' |]]]; simpl; intros H.
  - injection H as <- _. reflexivity.
  - destruct (find_id_spec hostname chs) as [(ch & _ & _ & Hf) | (_ & Hf)];
      rewrite Hf in H; inversion H; reflexivity.
Qed.

Lemma CustomHostnameIDByName_error_empty_id_witness : ("" : string) = "".
Proof.
  apply (CustomHostnameIDByName_error_empty_id failing_transport "z1" "a.com" ""
           (ErrWrap (ErrWrap (ErrNew "connection refused") errMakeRequestError)
              "failed to fetch CustomHostnameIDByName")).
  vm_compute. reflexivity.
Defined.

(** With the empty hostname, [CustomHostnameIDByName] sends the request of
    [ListCustomHostnames zoneID 1]: the query has no [hostname]
    parameter, only [page=1&per_page=50]. *)
Theorem CustomHostnameIDByName_empty_is_list (t : request -> reply) (zoneID : string) :
  fst (run t (API.CustomHostnameIDByName zoneID ""))
    = fst (run t (API.ListCustomHostnames zoneID 1))
  /\ fst (run t (API.ListCustomHostnames zoneID 1))
    = [mkRequest "GET" ("/zones/" ++ zoneID ++ "/custom_hostnames?page=1&per_page=50") None].
Proof.
  unfold API.ListCustomHostnames. rewrite run_IDByName, !run_Filter.
  change (name_filter "") with zero_ch.
  case_reply; split; reflexivity.
Qed.
